(** * The packaging manifest of ai-video-editor-agent

    The repository is one file, [setup.py]: an import of [setup] and
    [find_packages] from setuptools and a single call of [setup].  This
    development keeps the file as the text it is, reads it with a lexer and
    a parser for the fragment of Python the file is written in, runs the
    resulting module against a model of the two setuptools entry points it
    calls, and states the facts a build tool observes about the package. *)

From Stdlib Require Import Bool Ascii String List NArith Arith Lia Permutation.
Import ListNotations.

Local Open Scope string_scope.
Local Open Scope list_scope.

Set Warnings "-register-all".

(** ** Errors *)

Inductive error : Type :=
| SyntaxError
| NameError (id : string)
| ImportError (what : string)
| TypeError (what : string)
| OutOfFuel.

Inductive result (A : Type) : Type :=
| Ok (a : A)
| Err (e : error).

Arguments Ok {A} a.
Arguments Err {A} e.

Definition bind {A B : Type} (r : result A) (k : A -> result B) : result B :=
  match r with
  | Ok a => k a
  | Err e => Err e
  end.

Definition fmap {A B : Type} (f : A -> B) (r : result A) : result B :=
  bind r (fun a => Ok (f a)).

Definition of_option {A : Type} (e : error) (o : option A) : result A :=
  match o with
  | Some a => Ok a
  | None => Err e
  end.

Notation "x <- c1 ;; c2" := (bind c1 (fun x => c2))
  (at level 61, c1 at next level, right associativity).
Notation "' p <- c1 ;; c2" := (bind c1 (fun x => let p := x in c2))
  (at level 61, p pattern, c1 at next level, right associativity).

Fixpoint mapM {A B : Type} (f : A -> result B) (l : list A) : result (list B) :=
  match l with
  | [] => Ok []
  | a :: l' => b <- f a ;; bs <- mapM f l' ;; Ok (b :: bs)
  end.

(** ** Characters *)

Definition newline : ascii := "010"%char.
Definition quote1 : ascii := "039"%char.
Definition quote2 : ascii := "034"%char.
Definition backslash : ascii := "092"%char.

Definition in_range (lo hi : nat) (c : ascii) : bool :=
  let n := nat_of_ascii c in Nat.leb lo n && Nat.leb n hi.

Definition is_digit : ascii -> bool := in_range 48 57.
Definition is_upper : ascii -> bool := in_range 65 90.
Definition is_lower : ascii -> bool := in_range 97 122.
Definition is_alpha (c : ascii) : bool := is_upper c || is_lower c.

Definition is_blank (c : ascii) : bool :=
  Ascii.eqb c " " || Ascii.eqb c "009".

Fixpoint rev_onto (s acc : string) : string :=
  match s with
  | EmptyString => acc
  | String c s' => rev_onto s' (String c acc)
  end.

Definition unrev (rev_buf : string) : string := rev_onto rev_buf EmptyString.

Fixpoint last_char (s : string) : option ascii :=
  match s with
  | EmptyString => None
  | String c s' =>
      match last_char s' with
      | None => Some c
      | last => last
      end
  end.

Fixpoint string_in (x : string) (l : list string) : bool :=
  match l with
  | [] => false
  | y :: l' => String.eqb x y || string_in x l'
  end.

Fixpoint lookup {A : Type} (k : string) (l : list (string * A)) : option A :=
  match l with
  | [] => None
  | (k', a) :: l' => if String.eqb k k' then Some a else lookup k l'
  end.

Fixpoint distinct (l : list string) : bool :=
  match l with
  | [] => true
  | x :: l' => negb (string_in x l') && distinct l'
  end.

(** ** The source file *)

Module Source.

(** [setup.py], byte for byte: two lines, the second without a final
    newline. *)
Definition setup_py : string :=
  "from setuptools import setup, find_packages"
  ++ String newline
  "setup(name='ai-video-editor-agent', version='0.1.0', author='Hernane Bini', description='AI-Powered Video Editor Agent', packages=find_packages(), python_requires='>=3.9', install_requires=['opencv-python>=4.8.0', 'torch>=2.1.0', 'fastapi>=0.104.0', 'pytest>=7.4.0'])".

(** The lines of a text, as [str.splitlines]: a final newline does not
    open one more line. *)
Fixpoint splitlines_from (rev_cur : string) (s : string) : list string :=
  match s with
  | EmptyString =>
      match rev_cur with
      | EmptyString => []
      | _ => [unrev rev_cur]
      end
  | String c s' =>
      if Ascii.eqb c newline
      then unrev rev_cur :: splitlines_from EmptyString s'
      else splitlines_from (String c rev_cur) s'
  end.

Definition splitlines : string -> list string := splitlines_from EmptyString.

(** The files of the repository, by name. *)
Definition repository : list (string * string) := [("setup.py", setup_py)].

End Source.

(** ** Lexer

    The tokens of the fragment: names (keywords are names, as in Python's
    tokenizer), string literals in single or double quotes without escapes,
    the delimiters of calls, lists, keyword arguments and attribute access,
    and the end of a line.  A comment runs to the end of its line.  Anything
    else (numbers, operators, escapes, triple quotes) is a [SyntaxError]
    here: the fragment is the one the manifest is written in. *)

Module Lexer.

Inductive token : Type :=
| NAME (id : string)
| STRING (s : string)
| OP (c : ascii)
| NEWLINE.

Inductive state : Type :=
| Start
| InName (rev_buf : string)
| InString (q : ascii) (rev_buf : string)
| InComment.

Definition is_name_start (c : ascii) : bool := is_alpha c || Ascii.eqb c "_".
Definition is_name_char (c : ascii) : bool := is_name_start c || is_digit c.

Definition is_delimiter (c : ascii) : bool :=
  Ascii.eqb c "(" || Ascii.eqb c ")" || Ascii.eqb c "[" || Ascii.eqb c "]"
  || Ascii.eqb c "," || Ascii.eqb c "=" || Ascii.eqb c ".".

Fixpoint lex (st : state) (s : string) : result (list token) :=
  match s with
  | EmptyString =>
      match st with
      | Start | InComment => Ok []
      | InName b => Ok [NAME (unrev b)]
      | InString _ _ => Err SyntaxError
      end
  | String c s' =>
      let fresh (_ : unit) : result (list token) :=
        if is_blank c then lex Start s'
        else if Ascii.eqb c newline then fmap (cons NEWLINE) (lex Start s')
        else if Ascii.eqb c "#" then lex InComment s'
        else if Ascii.eqb c quote1 || Ascii.eqb c quote2
             then lex (InString c EmptyString) s'
        else if is_name_start c then lex (InName (String c EmptyString)) s'
        else if is_delimiter c then fmap (cons (OP c)) (lex Start s')
        else Err SyntaxError in
      match st with
      | Start => fresh tt
      | InName b =>
          if is_name_char c then lex (InName (String c b)) s'
          else fmap (cons (NAME (unrev b))) (fresh tt)
      | InString q b =>
          if Ascii.eqb c q then fmap (cons (STRING (unrev b))) (lex Start s')
          else if Ascii.eqb c newline || Ascii.eqb c backslash
               then Err SyntaxError
          else lex (InString q (String c b)) s'
      | InComment =>
          if Ascii.eqb c newline then fmap (cons NEWLINE) (lex Start s')
          else lex InComment s'
      end
  end.

Definition tokenize : string -> result (list token) := lex Start.

End Lexer.

(** ** Abstract syntax

    The nodes of Python's [ast] the fragment needs: string constants, names,
    list displays and calls with positional and keyword arguments; an import
    from a module, a plain import and an expression statement. *)

Module Ast.

Inductive expr : Type :=
| Str (s : string)
| Name (id : string)
| ListOf (elts : list expr)
| Call (func : expr) (args : list expr) (keywords : list (string * expr)).

Inductive stmt : Type :=
| ImportFrom (module : string) (names : list string)
| Import (names : list string)
| Expr (value : expr).

Definition module : Type := list stmt.

End Ast.

(** ** Parser *)

Module Parser.

Import Lexer Ast.

Definition keywords : list string :=
  [ "False"; "None"; "True"; "and"; "as"; "assert"; "async"; "await";
    "break"; "class"; "continue"; "def"; "del"; "elif"; "else"; "except";
    "finally"; "for"; "from"; "global"; "if"; "import"; "in"; "is";
    "lambda"; "nonlocal"; "not"; "or"; "pass"; "raise"; "return"; "try";
    "while"; "with"; "yield" ].

Definition is_keyword (x : string) : bool := string_in x keywords.

Definition is_op (c : ascii) (t : token) : bool :=
  match t with
  | OP d => Ascii.eqb c d
  | _ => false
  end.

(** After one element of a bracketed sequence closed by [close]: a comma
    and the rest, or the closing bracket. *)
Definition sequence_tail {A : Type} (close : ascii)
    (rest : list token -> result (list A * list token)) (a : A)
    (ts : list token) : result (list A * list token) :=
  match ts with
  | t :: r =>
      if is_op "," t then '(l, r') <- rest r ;; Ok (a :: l, r')
      else if is_op close t then Ok ([a], r)
      else Err SyntaxError
  | [] => Err SyntaxError
  end.

Inductive argument : Type :=
| Positional (e : expr)
| Keyword (k : string) (e : expr).

Fixpoint positionals (l : list argument) : list expr :=
  match l with
  | [] => []
  | Positional e :: l' => e :: positionals l'
  | Keyword _ _ :: l' => positionals l'
  end.

Fixpoint keyword_args (l : list argument) : list (string * expr) :=
  match l with
  | [] => []
  | Positional _ :: l' => keyword_args l'
  | Keyword k e :: l' => (k, e) :: keyword_args l'
  end.

Fixpoint parse_expr (fuel : nat) (ts : list token) {struct fuel}
    : result (expr * list token) :=
  match fuel with
  | 0 => Err OutOfFuel
  | S n =>
      match ts with
      | NAME x :: r =>
          if is_keyword x then Err SyntaxError
          else parse_trailers n (Name x) r
      | STRING s :: r => parse_trailers n (Str s) r
      | OP c :: r =>
          if Ascii.eqb c "["
          then '(es, r') <- parse_elts n r ;; parse_trailers n (ListOf es) r'
          else Err SyntaxError
      | _ => Err SyntaxError
      end
  end

with parse_trailers (fuel : nat) (e : expr) (ts : list token) {struct fuel}
    : result (expr * list token) :=
  match fuel with
  | 0 => Err OutOfFuel
  | S n =>
      match ts with
      | OP c :: r =>
          if Ascii.eqb c "("
          then '(l, r') <- parse_arguments n false r ;;
               if distinct (List.map fst (keyword_args l))
               then parse_trailers n
                      (Call e (positionals l) (keyword_args l)) r'
               else Err SyntaxError
          else Ok (e, ts)
      | _ => Ok (e, ts)
      end
  end

with parse_elts (fuel : nat) (ts : list token) {struct fuel}
    : result (list expr * list token) :=
  match fuel with
  | 0 => Err OutOfFuel
  | S n =>
      match ts with
      | t :: r =>
          if is_op "]" t then Ok ([], r)
          else '(e, r') <- parse_expr n ts ;;
               sequence_tail "]" (parse_elts n) e r'
      | [] => Err SyntaxError
      end
  end

with parse_arguments (fuel : nat) (seen_keyword : bool) (ts : list token)
    {struct fuel} : result (list argument * list token) :=
  match fuel with
  | 0 => Err OutOfFuel
  | S n =>
      match ts with
      | [] => Err SyntaxError
      | NAME k :: OP c :: r =>
          if Ascii.eqb c "="
          then if is_keyword k then Err SyntaxError
               else '(e, r') <- parse_expr n r ;;
                    sequence_tail ")" (parse_arguments n true) (Keyword k e) r'
          else if seen_keyword then Err SyntaxError
          else '(e, r') <- parse_expr n ts ;;
               sequence_tail ")" (parse_arguments n false) (Positional e) r'
      | t :: r =>
          if is_op ")" t then Ok ([], r)
          else if seen_keyword then Err SyntaxError
          else '(e, r') <- parse_expr n ts ;;
               sequence_tail ")" (parse_arguments n false) (Positional e) r'
      end
  end.

(** The names of an import, separated by commas. *)
Fixpoint parse_names (ts : list token) : result (list string) :=
  match ts with
  | NAME x :: r =>
      if is_keyword x then Err SyntaxError
      else match r with
           | [] => Ok [x]
           | t :: r' =>
               if is_op "," t then fmap (cons x) (parse_names r')
               else Err SyntaxError
           end
  | _ => Err SyntaxError
  end.

Definition fuel_for (ts : list token) : nat := 2 * List.length ts + 2.

Definition parse_expr_stmt (ts : list token) : result stmt :=
  '(e, r) <- parse_expr (fuel_for ts) ts ;;
  match r with
  | [] => Ok (Expr e)
  | _ => Err SyntaxError
  end.

(** One logical line.  A line that opens with another keyword than [from]
    or [import] (a [def], a [class], a [return], ...) is outside the
    fragment. *)
Definition parse_stmt (ts : list token) : result stmt :=
  match ts with
  | NAME kw :: r =>
      if String.eqb kw "from" then
        match r with
        | NAME m :: NAME i :: r' =>
            if String.eqb i "import" && negb (is_keyword m)
            then fmap (ImportFrom m) (parse_names r')
            else Err SyntaxError
        | _ => Err SyntaxError
        end
      else if String.eqb kw "import" then fmap Import (parse_names r)
      else if is_keyword kw then Err SyntaxError
      else parse_expr_stmt ts
  | _ => parse_expr_stmt ts
  end.

(** The token stream cut at the ends of lines; blank lines hold no
    statement. *)
Fixpoint logical_lines (rev_cur : list token) (ts : list token)
    : list (list token) :=
  match ts with
  | [] =>
      match rev_cur with
      | [] => []
      | _ => [rev rev_cur]
      end
  | NEWLINE :: r =>
      match rev_cur with
      | [] => logical_lines [] r
      | _ => rev rev_cur :: logical_lines [] r
      end
  | t :: r => logical_lines (t :: rev_cur) r
  end.

Definition parse_module (text : string) : result module :=
  ts <- tokenize text ;;
  mapM parse_stmt (logical_lines [] ts).

End Parser.

(** ** Text helpers used by the metadata formats *)

(** [split_on sep s] is [s.split(sep)]: the pieces between separators, empty
    pieces included. *)
Fixpoint split_from (sep : ascii) (rev_cur : string) (s : string) : list string :=
  match s with
  | EmptyString => [unrev rev_cur]
  | String c s' =>
      if Ascii.eqb c sep
      then unrev rev_cur :: split_from sep EmptyString s'
      else split_from sep (String c rev_cur) s'
  end.

Definition split_on (sep : ascii) : string -> list string :=
  split_from sep EmptyString.

Fixpoint lstrip (s : string) : string :=
  match s with
  | String c s' => if is_blank c then lstrip s' else s
  | EmptyString => EmptyString
  end.

Definition strip (s : string) : string :=
  unrev (lstrip (unrev (lstrip s))).

(** The longest prefix of characters accepted by [p], and what follows. *)
Fixpoint span (p : ascii -> bool) (s : string) : string * string :=
  match s with
  | String c s' =>
      if p c then let '(a, b) := span p s' in (String c a, b)
      else (EmptyString, s)
  | EmptyString => (EmptyString, EmptyString)
  end.

(** ** Versions and version specifiers (PEP 440)

    A version is its release segment, the dotted numbers; pre-, post- and
    development releases, epochs and local labels are outside the model and
    do not parse.  Release segments compare number by number, the shorter
    one padded with zeros. *)

Module Pep440.

Definition version : Type := list N.

Definition digit_value (c : ascii) : N := N.of_nat (nat_of_ascii c - 48).

Fixpoint parse_release_from (rev_done : list N) (cur : option N) (s : string)
    : option version :=
  match s with
  | EmptyString =>
      match cur with
      | Some n => Some (rev (n :: rev_done))
      | None => None
      end
  | String c s' =>
      if is_digit c then
        let n := match cur with Some n => n | None => 0%N end in
        parse_release_from rev_done (Some (10 * n + digit_value c)%N) s'
      else if Ascii.eqb c "." then
        match cur with
        | Some n => parse_release_from (n :: rev_done) None s'
        | None => None
        end
      else None
  end.

Definition parse_version : string -> option version :=
  parse_release_from [] None.

Definition all_zero (v : version) : bool := forallb (N.eqb 0) v.

Fixpoint compare (a b : version) : comparison :=
  match a, b with
  | [], _ => if all_zero b then Eq else Lt
  | _, [] => if all_zero a then Eq else Gt
  | x :: a', y :: b' =>
      match N.compare x y with
      | Eq => compare a' b'
      | c => c
      end
  end.

Definition ltb (a b : version) : bool :=
  match compare a b with Lt => true | _ => false end.
Definition eqb (a b : version) : bool :=
  match compare a b with Eq => true | _ => false end.
Definition leb (a b : version) : bool := negb (ltb b a).

Inductive operator : Type := GE | LE | GT | LT | EQ | NE | COMPATIBLE.

Definition clause : Type := (operator * version)%type.
Definition specifier_set : Type := list clause.

(** [~= X.Y.Z] is [>= X.Y.Z] together with [== X.Y.*]. *)
Definition compatible (v bound : version) : bool :=
  let k := (List.length bound - 1)%nat in
  Nat.ltb 0 k && leb bound v
  && eqb (firstn k (v ++ repeat 0%N k)) (firstn k bound).

Definition satisfies (v : version) (c : clause) : bool :=
  let '(o, bound) := c in
  match o with
  | GE => leb bound v
  | LE => leb v bound
  | GT => ltb bound v
  | LT => ltb v bound
  | EQ => eqb v bound
  | NE => negb (eqb v bound)
  | COMPATIBLE => compatible v bound
  end.

Definition satisfies_all (v : version) (ss : specifier_set) : bool :=
  forallb (satisfies v) ss.

Definition operator_of (a b : ascii) : option operator :=
  if Ascii.eqb b "=" then
    if Ascii.eqb a ">" then Some GE
    else if Ascii.eqb a "<" then Some LE
    else if Ascii.eqb a "=" then Some EQ
    else if Ascii.eqb a "!" then Some NE
    else if Ascii.eqb a "~" then Some COMPATIBLE
    else None
  else None.

Definition parse_clause (text : string) : option clause :=
  match strip text with
  | String a (String b rest as tail) =>
      match operator_of a b with
      | Some o => option_map (pair o) (parse_version (strip rest))
      | None =>
          if Ascii.eqb a ">" then option_map (pair GT) (parse_version (strip tail))
          else if Ascii.eqb a "<" then option_map (pair LT) (parse_version (strip tail))
          else None
      end
  | _ => None
  end.

Fixpoint traverse {A B : Type} (f : A -> option B) (l : list A)
    : option (list B) :=
  match l with
  | [] => Some []
  | a :: l' =>
      match f a, traverse f l' with
      | Some b, Some bs => Some (b :: bs)
      | _, _ => None
      end
  end.

Definition parse_specifier_set (text : string) : option specifier_set :=
  traverse parse_clause (split_on "," text).

End Pep440.

(** ** Requirement strings (PEP 508)

    A requirement is a project name followed by a comma-separated set of
    version clauses.  Extras, environment markers and direct references are
    outside the model and do not parse. *)

Module Pep508.

Record requirement : Type := Requirement {
  project : string;
  specifiers : Pep440.specifier_set
}.

Definition is_separator (c : ascii) : bool :=
  Ascii.eqb c "-" || Ascii.eqb c "_" || Ascii.eqb c ".".

Definition is_project_char (c : ascii) : bool :=
  is_alpha c || is_digit c || is_separator c.

Definition parse_requirement (text : string) : option requirement :=
  let '(name, rest) := span is_project_char (strip text) in
  match name, strip rest with
  | EmptyString, _ => None
  | _, EmptyString => Some (Requirement name [])
  | _, tail => option_map (Requirement name) (Pep440.parse_specifier_set tail)
  end.

End Pep508.

(** ** The two setuptools entry points the manifest calls *)

Module Setuptools.

(** The directory the manifest is evaluated in: files by name, directories
    with their entries, in the order the file system lists them. *)
Inductive entry : Type :=
| File (name : string)
| Dir (name : string) (entries : list entry).

Definition entry_name (e : entry) : string :=
  match e with
  | File n => n
  | Dir n _ => n
  end.

Definition is_file_named (n : string) (e : entry) : bool :=
  match e with
  | File m => String.eqb m n
  | Dir _ _ => false
  end.

Fixpoint has_dot (s : string) : bool :=
  match s with
  | EmptyString => false
  | String c s' => Ascii.eqb c "." || has_dot s'
  end.

(** A directory is a package when its name has no dot and it holds an
    [__init__.py]. *)
Definition looks_like_package (e : entry) : bool :=
  match e with
  | File _ => false
  | Dir n es => negb (has_dot n) && existsb (is_file_named "__init__.py") es
  end.

Definition qualify (prefix name : string) : string :=
  match prefix with
  | EmptyString => name
  | _ => prefix ++ "." ++ name
  end.

(** [fnmatchcase item pattern] for patterns of literal characters, [?] and
    [*]: [?] stands for one character, [*] for any run of characters. *)
Fixpoint fnmatchcase (item pattern : string) {struct pattern} : bool :=
  match pattern with
  | EmptyString =>
      match item with
      | EmptyString => true
      | _ => false
      end
  | String c pattern' =>
      if Ascii.eqb c "*" then
        (fix any_run (item : string) : bool :=
           fnmatchcase item pattern'
           || match item with
              | EmptyString => false
              | String _ item' => any_run item'
              end) item
      else
        match item with
        | EmptyString => false
        | String d item' =>
            (Ascii.eqb c "?" || Ascii.eqb c d) && fnmatchcase item' pattern'
        end
  end.

(** A pattern without [?] and [*] stands for itself. *)
Fixpoint plain (pattern : string) : bool :=
  match pattern with
  | EmptyString => true
  | String c pattern' =>
      negb (Ascii.eqb c "*") && negb (Ascii.eqb c "?") && plain pattern'
  end.

(** A filter is a list of patterns: calling it asks whether one of them
    matches, membership whether the text is literally one of them. *)
Definition matches_any (patterns : list string) (item : string) : bool :=
  existsb (fnmatchcase item) patterns.

Definition listed (patterns : list string) (item : string) : bool :=
  string_in item patterns.

(** The filters of [find_packages()] called without arguments: everything
    is included, and [ez_setup] and whatever ends in [__pycache__] are
    always excluded. *)
Definition always_exclude : list string := ["ez_setup"; "*__pycache__"].
Definition default_include : list string := ["*"].

Definition package_name (prefix : string) (d : entry) : string :=
  qualify prefix (entry_name d).

(** A directory that looks like a package is reported when the include
    filter matches its dotted name and the exclude filter does not. *)
Definition yielded (prefix : string) (d : entry) : bool :=
  looks_like_package d
  && matches_any default_include (package_name prefix d)
  && negb (matches_any always_exclude (package_name prefix d)).

(** It is searched further unless the exclude filter lists the whole of
    it, as [package*] or [package.*]. *)
Definition kept (prefix : string) (d : entry) : bool :=
  looks_like_package d
  && negb (listed always_exclude (package_name prefix d ++ "*")
           || listed always_exclude (package_name prefix d ++ ".*")).

(** [find_packages()] with its defaults (where ['.']): the walk reports
    the packages of a directory, then descends into each directory it
    kept; a directory that is not a package is not entered. *)
Fixpoint walk (prefix : string) (e : entry) {struct e} : list string :=
  match e with
  | File _ => []
  | Dir _ es =>
      List.map (package_name prefix) (List.filter (yielded prefix) es)
      ++ List.flat_map
           (fun d => if kept prefix d then walk (package_name prefix d) d
                     else [])
           es
  end.

Definition find_packages (tree : list entry) : list string :=
  walk EmptyString (Dir "." tree).

Inductive builtin : Type :=
| Setup
| FindPackages.

(** What [from setuptools import ...] can name, of the module's
    attributes. *)
Definition attribute (name : string) : option builtin :=
  if String.eqb name "setup" then Some Setup
  else if String.eqb name "find_packages" then Some FindPackages
  else None.

(** The same directory contents, whatever the order of the listings. *)
Inductive same_entry : entry -> entry -> Prop :=
| same_file : forall n, same_entry (File n) (File n)
| same_dir : forall n es es',
    same_entries es es' -> same_entry (Dir n es) (Dir n es')
with same_entries : list entry -> list entry -> Prop :=
| same_nil : same_entries [] []
| same_cons : forall e e' l l',
    same_entry e e' -> same_entries l l' -> same_entries (e :: l) (e' :: l')
| same_swap : forall e1 e2 l,
    same_entries (e1 :: e2 :: l) (e2 :: e1 :: l)
| same_trans : forall l1 l2 l3,
    same_entries l1 l2 -> same_entries l2 l3 -> same_entries l1 l3.

End Setuptools.

(** ** Running the module *)

Module Interp.

Import Ast Setuptools.

Inductive value : Type :=
| VStr (s : string)
| VList (vs : list value)
| VModule (name : string)
| VBuiltin (b : builtin)
| VDistribution (attrs : list (string * value)).

(** What [setup] was given: the keyword arguments, evaluated, in the
    order of the call. *)
Definition distribution : Type := list (string * value).

Record state : Type := State {
  globals : list (string * value);
  distributions : list distribution
}.

Definition initial : state := State [] [].

Definition bind_global (x : string) (v : value) (st : state) : state :=
  State ((x, v) :: globals st) (distributions st).

Definition register (d : distribution) (st : state) : state :=
  State (globals st) (distributions st ++ [d]).

Section InDirectory.

(** The directory the module runs in, and whether setuptools can be
    imported there. *)
Variable tree : list entry.
Variable setuptools_installed : bool.

(** [find_packages] is called here with its defaults only; [setup]
    takes keyword arguments only, records the distribution they
    describe and returns it. *)
Definition call (f : value) (args : list value)
    (kws : list (string * value)) (st : state) : result (value * state) :=
  match f with
  | VBuiltin FindPackages =>
      match args, kws with
      | [], [] => Ok (VList (List.map VStr (find_packages tree)), st)
      | _, _ => Err (TypeError "find_packages")
      end
  | VBuiltin Setup =>
      match args with
      | [] => Ok (VDistribution kws, register kws st)
      | _ => Err (TypeError "setup")
      end
  | _ => Err (TypeError "not callable")
  end.

(** Evaluation order is Python's: the callee, the positional arguments
    from left to right, then the keyword values from left to right. *)
Fixpoint eval (e : expr) (st : state) {struct e} : result (value * state) :=
  match e with
  | Str s => Ok (VStr s, st)
  | Name x =>
      v <- of_option (NameError x) (lookup x (globals st)) ;; Ok (v, st)
  | ListOf es =>
      '(vs, st') <-
        (fix eval_all (es : list expr) (st : state)
           : result (list value * state) :=
           match es with
           | [] => Ok ([], st)
           | e :: es' =>
               '(v, st1) <- eval e st ;;
               '(vs, st2) <- eval_all es' st1 ;;
               Ok (v :: vs, st2)
           end) es st ;;
      Ok (VList vs, st')
  | Call f args kws =>
      '(fv, st0) <- eval f st ;;
      '(avs, st1) <-
        (fix eval_all (es : list expr) (st : state)
           : result (list value * state) :=
           match es with
           | [] => Ok ([], st)
           | e :: es' =>
               '(v, st1) <- eval e st ;;
               '(vs, st2) <- eval_all es' st1 ;;
               Ok (v :: vs, st2)
           end) args st0 ;;
      '(kvs, st2) <-
        (fix eval_keywords (kws : list (string * expr)) (st : state)
           : result (list (string * value) * state) :=
           match kws with
           | [] => Ok ([], st)
           | (k, e) :: kws' =>
               '(v, st1) <- eval e st ;;
               '(kvs, st2) <- eval_keywords kws' st1 ;;
               Ok ((k, v) :: kvs, st2)
           end) kws st1 ;;
      call fv avs kvs st2
  end.

Fixpoint import_from (names : list string) (st : state) : result state :=
  match names with
  | [] => Ok st
  | x :: names' =>
      b <- of_option (ImportError x) (attribute x) ;;
      import_from names' (bind_global x (VBuiltin b) st)
  end.

Fixpoint import_modules (names : list string) (st : state) : result state :=
  match names with
  | [] => Ok st
  | m :: names' =>
      if String.eqb m "setuptools" && setuptools_installed
      then import_modules names' (bind_global m (VModule m) st)
      else Err (ImportError m)
  end.

Definition exec (s : stmt) (st : state) : result state :=
  match s with
  | ImportFrom m names =>
      if String.eqb m "setuptools" && setuptools_installed
      then import_from names st
      else Err (ImportError m)
  | Import names => import_modules names st
  | Expr e => '(_, st') <- eval e st ;; Ok st'
  end.

Fixpoint exec_all (m : module) (st : state) : result state :=
  match m with
  | [] => Ok st
  | s :: m' => st' <- exec s st ;; exec_all m' st'
  end.

(** Running a source text from an empty module namespace. *)
Definition run (text : string) : result state :=
  m <- Parser.parse_module text ;; exec_all m initial.

(** What a build tool reads off [setup.py]: the one distribution its run
    declares. *)
Definition manifest : result distribution :=
  st <- run Source.setup_py ;;
  match distributions st with
  | [d] => Ok d
  | _ => Err (TypeError "expected one call of setup")
  end.

End InDirectory.

(** *** The fields of a distribution *)

Definition get_str (key : string) (d : distribution) : option string :=
  match lookup key d with
  | Some (VStr s) => Some s
  | _ => None
  end.

Definition as_str (v : value) : option string :=
  match v with
  | VStr s => Some s
  | _ => None
  end.

Definition get_strs (key : string) (d : distribution) : option (list string) :=
  match lookup key d with
  | Some (VList vs) => Pep440.traverse as_str vs
  | _ => None
  end.

Definition name := get_str "name".
Definition version := get_str "version".
Definition author := get_str "author".
Definition description := get_str "description".
Definition python_requires := get_str "python_requires".
Definition install_requires := get_strs "install_requires".
Definition packages := get_strs "packages".

Definition option_list {A : Type} (o : option (list A)) : list A :=
  match o with
  | Some l => l
  | None => []
  end.

(** The requirements of a distribution, read as PEP 508; none when the
    argument is absent. *)
Definition requirements (d : distribution) : option (list Pep508.requirement) :=
  match lookup "install_requires" d with
  | None => Some []
  | Some _ =>
      match install_requires d with
      | Some l => Pep440.traverse Pep508.parse_requirement l
      | None => None
      end
  end.

(** The supported interpreter versions; any when the argument is absent. *)
Definition requires_python (d : distribution) : option Pep440.specifier_set :=
  match lookup "python_requires" d with
  | None => Some []
  | Some _ =>
      match python_requires d with
      | Some s => Pep440.parse_specifier_set s
      | None => None
      end
  end.

End Interp.

(** ** What the source text and the module mention *)

Module Mentions.

Import Lexer Ast.

Definition is_name (x : string) (t : token) : bool :=
  match t with
  | NAME y => String.eqb x y
  | _ => false
  end.

(** A keyword that opens a definition or a block, or leaves one. *)
Definition defining_keywords : list string :=
  [ "def"; "class"; "lambda"; "async"; "if"; "for"; "while"; "try"; "with";
    "return"; "yield"; "raise"; "assert"; "global"; "nonlocal"; "del" ].

Definition mentions_any (xs : list string) (ts : list token) : bool :=
  existsb (fun t => existsb (fun x => is_name x t) xs) ts.

(** The names an expression reads and the string constants it holds. *)
Fixpoint names_of (e : expr) : list string :=
  match e with
  | Str _ => []
  | Name x => [x]
  | ListOf es => List.flat_map names_of es
  | Call f args kws =>
      names_of f ++ List.flat_map names_of args
      ++ List.flat_map (fun kw => names_of (snd kw)) kws
  end.

Fixpoint constants_of (e : expr) : list string :=
  match e with
  | Str s => [s]
  | Name _ => []
  | ListOf es => List.flat_map constants_of es
  | Call f args kws =>
      constants_of f ++ List.flat_map constants_of args
      ++ List.flat_map (fun kw => constants_of (snd kw)) kws
  end.

Definition names_read (m : module) : list string :=
  List.flat_map
    (fun s => match s with Expr e => names_of e | _ => [] end) m.

Definition constants (m : module) : list string :=
  List.flat_map
    (fun s => match s with Expr e => constants_of e | _ => [] end) m.

Definition modules_imported (m : module) : list string :=
  List.flat_map
    (fun s => match s with
              | ImportFrom x _ => [x]
              | Import xs => xs
              | Expr _ => []
              end) m.

(** The calls of [setup] among the statements, by their keyword names. *)
Definition setup_calls (m : module) : list (list string) :=
  List.flat_map
    (fun s => match s with
              | Expr (Call (Name f) _ kws) =>
                  if String.eqb f "setup" then [List.map fst kws] else []
              | _ => []
              end) m.

End Mentions.

(** ** The manifest, read by hand

    The module [setup.py] parses to and the distribution its run declares,
    written out; the lemmas below check both against the text. *)

Module Manifest.

Import Ast Interp.

Definition keywords : list (string * expr) :=
  [ ("name", Str "ai-video-editor-agent");
    ("version", Str "0.1.0");
    ("author", Str "Hernane Bini");
    ("description", Str "AI-Powered Video Editor Agent");
    ("packages", Call (Name "find_packages") [] []);
    ("python_requires", Str ">=3.9");
    ("install_requires",
      ListOf [ Str "opencv-python>=4.8.0"; Str "torch>=2.1.0";
               Str "fastapi>=0.104.0"; Str "pytest>=7.4.0" ]) ].

Definition import_line : stmt :=
  ImportFrom "setuptools" ["setup"; "find_packages"].

Definition setup_line : stmt := Expr (Call (Name "setup") [] keywords).

Definition module : Ast.module := [import_line; setup_line].

Definition declared (found : list string) : distribution :=
  [ ("name", VStr "ai-video-editor-agent");
    ("version", VStr "0.1.0");
    ("author", VStr "Hernane Bini");
    ("description", VStr "AI-Powered Video Editor Agent");
    ("packages", VList (List.map VStr found));
    ("python_requires", VStr ">=3.9");
    ("install_requires",
      VList [ VStr "opencv-python>=4.8.0"; VStr "torch>=2.1.0";
              VStr "fastapi>=0.104.0"; VStr "pytest>=7.4.0" ]) ].

(** The directory of the repository: its files, and no directory. *)
Definition tree : list Setuptools.entry :=
  List.map (fun f => Setuptools.File (fst f)) Source.repository.

(** Two listings of one directory, as a project with a package would have
    it, to try the definitions on. *)
Definition listing1 : list Setuptools.entry :=
  [ Setuptools.File "setup.py";
    Setuptools.Dir "agent"
      [ Setuptools.File "__init__.py";
        Setuptools.Dir "tools" [Setuptools.File "__init__.py"];
        Setuptools.File "editor.py" ] ].

Definition listing2 : list Setuptools.entry :=
  [ Setuptools.Dir "agent"
      [ Setuptools.Dir "tools" [Setuptools.File "__init__.py"];
        Setuptools.File "__init__.py";
        Setuptools.File "editor.py" ];
    Setuptools.File "setup.py" ].

End Manifest.

(** * Properties *)

(** ** Reading and running the text *)

Lemma tokenize_setup_py :
  exists ts, Lexer.tokenize Source.setup_py = Ok ts /\ List.length ts = 47.
Proof. eexists; split; vm_compute; reflexivity. Qed.

Lemma parse_setup_py : Parser.parse_module Source.setup_py = Ok Manifest.module.
Proof. vm_compute. reflexivity. Qed.

Lemma exec_setup_py (tree : list Setuptools.entry) :
  Interp.exec_all tree true Manifest.module Interp.initial
  = Ok (Interp.State
          [ ("find_packages", Interp.VBuiltin Setuptools.FindPackages);
            ("setup", Interp.VBuiltin Setuptools.Setup) ]
          [ Manifest.declared (Setuptools.find_packages tree) ]).
Proof. reflexivity. Qed.

Lemma run_setup_py (tree : list Setuptools.entry) :
  Interp.run tree true Source.setup_py
  = Ok (Interp.State
          [ ("find_packages", Interp.VBuiltin Setuptools.FindPackages);
            ("setup", Interp.VBuiltin Setuptools.Setup) ]
          [ Manifest.declared (Setuptools.find_packages tree) ]).
Proof.
  unfold Interp.run. rewrite parse_setup_py. apply exec_setup_py.
Qed.

Lemma manifest_declared (tree : list Setuptools.entry) :
  Interp.manifest tree true = Ok (Manifest.declared (Setuptools.find_packages tree)).
Proof.
  unfold Interp.manifest. rewrite run_setup_py. reflexivity.
Qed.

(** C1: the keyword arguments [name] and [version] of the call of [setup]
    are the string literals ['ai-video-editor-agent'] and ['0.1.0'], and in
    every directory, run with setuptools importable, the distribution the
    manifest declares has that name and that version. *)
Theorem manifest_name_version :
  exists m kws,
    Parser.parse_module Source.setup_py = Ok m
    /\ nth_error m 1 = Some (Ast.Expr (Ast.Call (Ast.Name "setup") [] kws))
    /\ lookup "name" kws = Some (Ast.Str "ai-video-editor-agent")
    /\ lookup "version" kws = Some (Ast.Str "0.1.0")
    /\ forall tree, exists d,
         Interp.manifest tree true = Ok d
         /\ Interp.name d = Some "ai-video-editor-agent"
         /\ Interp.version d = Some "0.1.0".
Proof.
  exists Manifest.module, Manifest.keywords.
  split; [apply parse_setup_py |].
  repeat (split; [reflexivity |]).
  intros tree. eexists. split; [apply manifest_declared |].
  split; reflexivity.
Qed.

(** C5: the keyword arguments [author] and [description] of the call of
    [setup] are the string literals ['Hernane Bini'] and ['AI-Powered Video
    Editor Agent'], and in every directory, run with setuptools importable,
    the distribution the manifest declares has that author and that
    description. *)
Theorem manifest_author_description :
  exists m kws,
    Parser.parse_module Source.setup_py = Ok m
    /\ nth_error m 1 = Some (Ast.Expr (Ast.Call (Ast.Name "setup") [] kws))
    /\ lookup "author" kws = Some (Ast.Str "Hernane Bini")
    /\ lookup "description" kws = Some (Ast.Str "AI-Powered Video Editor Agent")
    /\ forall tree, exists d,
         Interp.manifest tree true = Ok d
         /\ Interp.author d = Some "Hernane Bini"
         /\ Interp.description d = Some "AI-Powered Video Editor Agent".
Proof.
  exists Manifest.module, Manifest.keywords.
  split; [apply parse_setup_py |].
  repeat (split; [reflexivity |]).
  intros tree. eexists. split; [apply manifest_declared |].
  split; reflexivity.
Qed.

(** ** The order on versions *)

Lemma all_zero_cons (x : N) (v : Pep440.version) :
  Pep440.all_zero (x :: v) = true <-> x = 0%N /\ Pep440.all_zero v = true.
Proof.
  unfold Pep440.all_zero. cbn [forallb]. rewrite andb_true_iff, N.eqb_eq.
  intuition congruence.
Qed.

Lemma all_zero_unfold (x : N) (v : Pep440.version) :
  Pep440.all_zero (x :: v) = (0 =? x)%N && Pep440.all_zero v.
Proof. reflexivity. Qed.

Lemma compare_nil_l (b : Pep440.version) :
  Pep440.compare [] b = if Pep440.all_zero b then Eq else Lt.
Proof. reflexivity. Qed.

Lemma compare_nil_r (a : Pep440.version) :
  Pep440.compare a [] = if Pep440.all_zero a then Eq else Gt.
Proof. destruct a; reflexivity. Qed.

Lemma compare_cons (x y : N) (a b : Pep440.version) :
  Pep440.compare (x :: a) (y :: b)
  = match N.compare x y with
    | Eq => Pep440.compare a b
    | c => c
    end.
Proof. reflexivity. Qed.

Lemma compare_zero_l (a c : Pep440.version) :
  Pep440.all_zero a = true -> Pep440.compare a c = Pep440.compare [] c.
Proof.
  revert c. induction a as [| x a IH]; intros c Hz; [reflexivity |].
  destruct c as [| z c].
  - rewrite compare_nil_r, Hz. reflexivity.
  - apply all_zero_cons in Hz. destruct Hz as [-> Hz].
    rewrite compare_cons, compare_nil_l, all_zero_unfold.
    destruct (N.compare_spec 0 z) as [<- | Hlt | Hgt].
    + rewrite (IH c Hz), compare_nil_l. reflexivity.
    + destruct (N.eqb_spec 0 z); [lia | reflexivity].
    + lia.
Qed.

Lemma compare_zero_r (a b : Pep440.version) :
  Pep440.all_zero b = true -> Pep440.compare a b = Pep440.compare a [].
Proof.
  revert b. induction a as [| x a IH]; intros b Hz.
  - rewrite !compare_nil_l, Hz. reflexivity.
  - destruct b as [| y b]; [reflexivity |].
    apply all_zero_cons in Hz. destruct Hz as [-> Hz].
    rewrite compare_cons, compare_nil_r, all_zero_unfold.
    destruct (N.compare_spec x 0) as [-> | Hlt | Hgt].
    + rewrite (IH b Hz), compare_nil_r. reflexivity.
    + lia.
    + destruct (N.eqb_spec 0 x); [lia | reflexivity].
Qed.

Lemma compare_refl (a : Pep440.version) : Pep440.compare a a = Eq.
Proof.
  induction a as [| x a IH]; [reflexivity |].
  rewrite compare_cons, N.compare_refl. exact IH.
Qed.

Lemma compare_antisym (a b : Pep440.version) :
  Pep440.compare b a = CompOpp (Pep440.compare a b).
Proof.
  revert b. induction a as [| x a IH]; intros b.
  - rewrite compare_nil_r, compare_nil_l.
    destruct (Pep440.all_zero b); reflexivity.
  - destruct b as [| y b].
    + rewrite compare_nil_r, compare_nil_l.
      destruct (Pep440.all_zero (x :: a)); reflexivity.
    + rewrite !compare_cons, (N.compare_antisym x y), IH.
      destruct (N.compare x y); reflexivity.
Qed.

Lemma leb_compare (a b : Pep440.version) :
  Pep440.leb a b = true <-> Pep440.compare a b <> Gt.
Proof.
  unfold Pep440.leb, Pep440.ltb. rewrite (compare_antisym a b).
  destruct (Pep440.compare a b); simpl; split; congruence.
Qed.

Lemma compare_le_trans (a b c : Pep440.version) :
  Pep440.compare a b <> Gt -> Pep440.compare b c <> Gt ->
  Pep440.compare a c <> Gt.
Proof.
  revert b c. induction a as [| x a IH]; intros b c Hab Hbc.
  - rewrite compare_nil_l. destruct (Pep440.all_zero c); congruence.
  - destruct b as [| y b].
    + rewrite compare_nil_r in Hab.
      destruct (Pep440.all_zero (x :: a)) eqn:Hz; [| congruence].
      rewrite (compare_zero_l _ c Hz). exact Hbc.
    + destruct c as [| z c].
      * rewrite compare_nil_r in Hbc.
        destruct (Pep440.all_zero (y :: b)) eqn:Hz; [| congruence].
        rewrite (compare_zero_r _ _ Hz) in Hab. exact Hab.
      * rewrite compare_cons in *.
        destruct (N.compare_spec x y), (N.compare_spec y z),
                 (N.compare_spec x z);
          try congruence; try lia; subst; eauto.
Qed.

Lemma leb_trans (a b c : Pep440.version) :
  Pep440.leb a b = true -> Pep440.leb b c = true -> Pep440.leb a c = true.
Proof. rewrite !leb_compare. apply compare_le_trans. Qed.

Lemma leb_total (a b : Pep440.version) :
  Pep440.leb a b = true \/ Pep440.ltb b a = true.
Proof.
  unfold Pep440.leb. destruct (Pep440.ltb b a); auto.
Qed.

Lemma satisfies_minimum (v bound : Pep440.version) :
  Pep440.satisfies_all v [(Pep440.GE, bound)] = Pep440.leb bound v.
Proof. unfold Pep440.satisfies_all. simpl. apply andb_true_r. Qed.

Lemma minimum_upward_closed (bound v v' : Pep440.version) :
  Pep440.satisfies_all v [(Pep440.GE, bound)] = true ->
  Pep440.leb v v' = true ->
  Pep440.satisfies_all v' [(Pep440.GE, bound)] = true.
Proof. rewrite !satisfies_minimum. apply leb_trans. Qed.

Lemma leb_not_lt (a b : Pep440.version) :
  Pep440.leb a b = true <-> Pep440.compare b a <> Lt.
Proof.
  unfold Pep440.leb, Pep440.ltb.
  destruct (Pep440.compare b a); simpl; split; congruence.
Qed.

Lemma leb_false_lt (a b : Pep440.version) :
  Pep440.leb a b = false <-> Pep440.compare b a = Lt.
Proof.
  unfold Pep440.leb, Pep440.ltb.
  destruct (Pep440.compare b a); simpl; split; congruence.
Qed.

Lemma compare_major_minor (major minor : N) (rest : Pep440.version) (x y : N) :
  Pep440.compare (major :: minor :: rest) [x; y] <> Lt
  <-> (x < major \/ major = x /\ y <= minor)%N.
Proof.
  rewrite !compare_cons, compare_nil_r.
  destruct (N.compare_spec major x), (N.compare_spec minor y),
           (Pep440.all_zero rest);
    split; intros; try congruence; try lia.
Qed.

Lemma compare_major_only (major x y : N) :
  (0 < y)%N ->
  Pep440.compare [major] [x; y] <> Lt <-> (x < major)%N.
Proof.
  intros Hy. rewrite compare_cons, compare_nil_l, all_zero_unfold.
  destruct (N.compare_spec major x), (N.eqb_spec 0 y);
    simpl; split; intros; try congruence; try lia.
Qed.

(** ** The declared metadata *)

(** C2: the [install_requires] argument of the call of [setup] is the list
    of the four literals ['opencv-python>=4.8.0'], ['torch>=2.1.0'],
    ['fastapi>=0.104.0'] and ['pytest>=7.4.0'], and the distribution the
    manifest declares has exactly these four requirements: opencv-python
    (computer vision) at 4.8.0 or above, torch (machine learning) at 2.1.0
    or above, fastapi (web API) at 0.104.0 or above and pytest (tests) at
    7.4.0 or above, each with its minimum as its only clause. *)
Theorem manifest_install_requires :
  exists m kws,
    Parser.parse_module Source.setup_py = Ok m
    /\ nth_error m 1 = Some (Ast.Expr (Ast.Call (Ast.Name "setup") [] kws))
    /\ lookup "install_requires" kws
       = Some (Ast.ListOf [ Ast.Str "opencv-python>=4.8.0";
                            Ast.Str "torch>=2.1.0";
                            Ast.Str "fastapi>=0.104.0";
                            Ast.Str "pytest>=7.4.0" ])
    /\ forall tree, exists d,
         Interp.manifest tree true = Ok d
         /\ Interp.install_requires d
            = Some [ "opencv-python>=4.8.0"; "torch>=2.1.0";
                     "fastapi>=0.104.0"; "pytest>=7.4.0" ]
         /\ Interp.requirements d
            = Some [ Pep508.Requirement "opencv-python" [(Pep440.GE, [4; 8; 0]%N)];
                     Pep508.Requirement "torch" [(Pep440.GE, [2; 1; 0]%N)];
                     Pep508.Requirement "fastapi" [(Pep440.GE, [0; 104; 0]%N)];
                     Pep508.Requirement "pytest" [(Pep440.GE, [7; 4; 0]%N)] ].
Proof.
  exists Manifest.module, Manifest.keywords.
  split; [apply parse_setup_py |].
  repeat (split; [reflexivity |]).
  intros tree. eexists. split; [apply manifest_declared |].
  split; vm_compute; reflexivity.
Qed.

(** C4: the [python_requires] argument of the call of [setup] is the
    literal ['>=3.9']; as a version specifier it is the single clause
    [>= 3.9], which a version satisfies exactly when it does not compare
    below 3.9: a version [major.minor...] when its major number is above 3
    or is 3 with a minor number of 9 or more, a bare [major] when it is
    above 3; every version that compares below 3.9 violates it. *)
Theorem manifest_python_requires :
  exists m kws,
    Parser.parse_module Source.setup_py = Ok m
    /\ nth_error m 1 = Some (Ast.Expr (Ast.Call (Ast.Name "setup") [] kws))
    /\ lookup "python_requires" kws = Some (Ast.Str ">=3.9")
    /\ forall tree, exists d spec,
         Interp.manifest tree true = Ok d
         /\ Interp.python_requires d = Some ">=3.9"
         /\ Interp.requires_python d = Some spec
         /\ spec = [(Pep440.GE, [3; 9]%N)]
         /\ (forall v, Pep440.satisfies_all v spec = true
                       <-> Pep440.compare v [3; 9]%N <> Lt)
         /\ (forall v, Pep440.satisfies_all v spec = false
                       <-> Pep440.compare v [3; 9]%N = Lt)
         /\ (forall major minor rest,
               Pep440.satisfies_all (major :: minor :: rest) spec = true
               <-> (3 < major \/ major = 3 /\ 9 <= minor)%N)
         /\ (forall major,
               Pep440.satisfies_all [major] spec = true <-> (3 < major)%N).
Proof.
  exists Manifest.module, Manifest.keywords.
  split; [apply parse_setup_py |].
  repeat (split; [reflexivity |]).
  intros tree. exists (Manifest.declared (Setuptools.find_packages tree)).
  exists [(Pep440.GE, [3; 9]%N)].
  split; [apply manifest_declared |].
  repeat (split; [reflexivity |]).
  split; [| split; [| split]].
  - intros v. rewrite satisfies_minimum. apply leb_not_lt.
  - intros v. rewrite satisfies_minimum. apply leb_false_lt.
  - intros major minor rest.
    rewrite satisfies_minimum, leb_not_lt. apply compare_major_minor.
  - intros major.
    rewrite satisfies_minimum, leb_not_lt. apply compare_major_only. lia.
Qed.

(** C6: each of the four requirements of the declared distribution parses
    to a project name and exactly one clause, a [>=] lower bound: no second
    clause, so no upper bound, exact pin or exclusion; and the set of
    versions a requirement accepts is closed upwards, any version at or above
    an accepted one being accepted too. *)
Theorem install_requires_minimum_only :
  forall tree, exists d reqs,
    Interp.manifest tree true = Ok d
    /\ Interp.requirements d = Some reqs
    /\ List.length reqs = 4
    /\ Forall (fun r => exists minimum,
                 Pep508.specifiers r = [(Pep440.GE, minimum)]) reqs
    /\ Forall (fun r => forall v v',
                 Pep440.satisfies_all v (Pep508.specifiers r) = true ->
                 Pep440.leb v v' = true ->
                 Pep440.satisfies_all v' (Pep508.specifiers r) = true) reqs.
Proof.
  intros tree. exists (Manifest.declared (Setuptools.find_packages tree)).
  eexists. split; [apply manifest_declared |].
  split; [vm_compute; reflexivity |].
  split; [reflexivity |].
  split.
  - repeat constructor; eexists; reflexivity.
  - repeat constructor; intros v v'; apply minimum_upward_closed.
Qed.

(** ** The shape of the source *)

(** C7: the repository is the one file [setup.py]; the file has exactly two
    lines; the first is by itself the import of [setup] and [find_packages]
    from setuptools and the second by itself one call of [setup] with
    keyword arguments only; the file as a whole is these two statements;
    no token of it is a keyword that opens a function, a class, a lambda or
    a block; and running it, with setuptools importable, binds the two
    imported names and declares one distribution, nothing else. *)
Theorem repository_is_two_line_declaration :
  List.map fst Source.repository = ["setup.py"]
  /\ exists line1 line2 kws ts,
       Source.splitlines Source.setup_py = [line1; line2]
       /\ Parser.parse_module line1
          = Ok [Ast.ImportFrom "setuptools" ["setup"; "find_packages"]]
       /\ Parser.parse_module line2
          = Ok [Ast.Expr (Ast.Call (Ast.Name "setup") [] kws)]
       /\ Parser.parse_module Source.setup_py
          = Ok [ Ast.ImportFrom "setuptools" ["setup"; "find_packages"];
                 Ast.Expr (Ast.Call (Ast.Name "setup") [] kws) ]
       /\ Lexer.tokenize Source.setup_py = Ok ts
       /\ Mentions.mentions_any Mentions.defining_keywords ts = false
       /\ forall tree, exists d,
            Interp.run tree true Source.setup_py
            = Ok (Interp.State
                    [ ("find_packages", Interp.VBuiltin Setuptools.FindPackages);
                      ("setup", Interp.VBuiltin Setuptools.Setup) ]
                    [d]).
Proof.
  split; [reflexivity |].
  do 2 eexists. exists Manifest.keywords. eexists.
  split; [vm_compute; reflexivity |].
  split; [vm_compute; reflexivity |].
  split; [vm_compute; reflexivity |].
  split; [apply parse_setup_py |].
  split; [vm_compute; reflexivity |].
  split; [vm_compute; reflexivity |].
  intros tree. eexists. apply run_setup_py.
Qed.

(** C8: the call of [setup] passes the seven keyword arguments [name],
    [version], [author], [description], [packages], [python_requires] and
    [install_requires] and no other, so no [entry_points] and no [scripts];
    no token and no string constant of the file is [console_scripts],
    [entry_points] or [scripts]; the only module imported is setuptools and
    the only names read are [setup] and [find_packages], so neither [os],
    [environ], [getenv], [sys], [argv] nor [exit] occurs; and the declared
    distribution has no [entry_points] and no [scripts] field. *)
Theorem no_commands_no_environment :
  exists m ts,
    Parser.parse_module Source.setup_py = Ok m
    /\ Lexer.tokenize Source.setup_py = Ok ts
    /\ Mentions.setup_calls m
       = [[ "name"; "version"; "author"; "description"; "packages";
            "python_requires"; "install_requires" ]]
    /\ Mentions.modules_imported m = ["setuptools"]
    /\ Mentions.names_read m = ["setup"; "find_packages"]
    /\ Mentions.mentions_any
         [ "entry_points"; "scripts"; "console_scripts"; "os"; "environ";
           "getenv"; "sys"; "argv"; "exit" ] ts = false
    /\ existsb (fun c => string_in c ["entry_points"; "scripts"; "console_scripts"])
         (Mentions.constants m) = false
    /\ forall tree, exists d,
         Interp.manifest tree true = Ok d
         /\ lookup "entry_points" d = None
         /\ lookup "scripts" d = None.
Proof.
  exists Manifest.module. eexists.
  split; [apply parse_setup_py |].
  split; [vm_compute; reflexivity |].
  repeat (split; [vm_compute; reflexivity |]).
  intros tree. eexists. split; [apply manifest_declared |].
  split; reflexivity.
Qed.

(** ** Packages *)

Lemma not_package_not_yielded (prefix : string) (e : Setuptools.entry) :
  Setuptools.looks_like_package e = false ->
  Setuptools.yielded prefix e = false /\ Setuptools.kept prefix e = false.
Proof.
  intros H. unfold Setuptools.yielded, Setuptools.kept. rewrite H.
  split; reflexivity.
Qed.

Lemma walk_no_packages (prefix name : string) (es : list Setuptools.entry) :
  forallb (fun e => negb (Setuptools.looks_like_package e)) es = true ->
  Setuptools.walk prefix (Setuptools.Dir name es) = [].
Proof.
  intros H. cbn [Setuptools.walk].
  induction es as [| e es IH]; [reflexivity |].
  cbn [forallb] in H. apply andb_true_iff in H. destruct H as [He Hes].
  apply negb_true_iff in He.
  destruct (not_package_not_yielded prefix e He) as [Hy Hk].
  cbn [List.filter List.flat_map]. rewrite Hy, Hk. cbn [app].
  exact (IH Hes).
Qed.

Lemma find_packages_no_packages (tree : list Setuptools.entry) :
  forallb (fun e => negb (Setuptools.looks_like_package e)) tree = true ->
  Setuptools.find_packages tree = [].
Proof. apply walk_no_packages. Qed.

(** C9: the [packages] argument of the call of [setup] is the call
    [find_packages()] without arguments; the directory of the repository is
    the file [setup.py] alone, no entry of it is a directory holding an
    [__init__.py], [find_packages] finds nothing there, and the distribution
    declared there has the empty list of packages (and no [py_modules]). *)
Theorem manifest_declares_no_packages :
  exists m kws,
    Parser.parse_module Source.setup_py = Ok m
    /\ nth_error m 1 = Some (Ast.Expr (Ast.Call (Ast.Name "setup") [] kws))
    /\ lookup "packages" kws
       = Some (Ast.Call (Ast.Name "find_packages") [] [])
    /\ Manifest.tree = [Setuptools.File "setup.py"]
    /\ existsb Setuptools.looks_like_package Manifest.tree = false
    /\ Setuptools.find_packages Manifest.tree = []
    /\ exists d,
         Interp.manifest Manifest.tree true = Ok d
         /\ Interp.packages d = Some []
         /\ lookup "py_modules" d = None.
Proof.
  exists Manifest.module, Manifest.keywords.
  assert (Hnone : Setuptools.find_packages Manifest.tree = [])
    by (apply find_packages_no_packages; reflexivity).
  split; [apply parse_setup_py |].
  do 4 (split; [reflexivity |]).
  split; [exact Hnone |].
  eexists. split; [apply manifest_declared |].
  rewrite Hnone. split; reflexivity.
Qed.

(** ** Determinism *)

Lemma manifest_without_setuptools (tree : list Setuptools.entry) :
  Interp.manifest tree false = Err (ImportError "setuptools").
Proof.
  unfold Interp.manifest, Interp.run. rewrite parse_setup_py. reflexivity.
Qed.

Scheme same_entry_mut := Induction for Setuptools.same_entry Sort Prop
  with same_entries_mut := Induction for Setuptools.same_entries Sort Prop.

Section WalkUpToOrder.

Import Setuptools.

Let top (prefix : string) (es : list entry) : list string :=
  List.map (package_name prefix) (List.filter (yielded prefix) es).

Let below (prefix : string) (es : list entry) : list string :=
  List.flat_map
    (fun d => if kept prefix d then walk (package_name prefix d) d else [])
    es.

Let agree (e e' : entry) : Prop :=
  entry_name e = entry_name e'
  /\ is_file_named "__init__.py" e = is_file_named "__init__.py" e'
  /\ looks_like_package e = looks_like_package e'
  /\ forall prefix, Permutation (walk prefix e) (walk prefix e').

Let agree_all (es es' : list entry) : Prop :=
  existsb (is_file_named "__init__.py") es
  = existsb (is_file_named "__init__.py") es'
  /\ forall prefix,
       Permutation (top prefix es) (top prefix es')
       /\ Permutation (below prefix es) (below prefix es').

Lemma filters_agree (prefix : string) (e e' : entry) :
  entry_name e = entry_name e' ->
  looks_like_package e = looks_like_package e' ->
  package_name prefix e = package_name prefix e'
  /\ yielded prefix e = yielded prefix e'
  /\ kept prefix e = kept prefix e'.
Proof.
  intros Hname Hpkg. unfold yielded, kept, package_name.
  rewrite Hname, Hpkg. auto.
Qed.

Lemma same_entries_agree :
  forall es es', same_entries es es' -> agree_all es es'.
Proof.
  apply (same_entries_mut
           (fun e e' _ => agree e e') (fun es es' _ => agree_all es es')).
  - intros n. unfold agree. auto.
  - intros n es es' _ [Hinit Hperm]. unfold agree.
    cbn [entry_name is_file_named looks_like_package walk].
    rewrite Hinit. repeat split.
    intros prefix. destruct (Hperm prefix) as [Htop Hbelow].
    apply Permutation_app; assumption.
  - split; [reflexivity | intros prefix; split; constructor].
  - intros e e' l l' _ (Hname & Hfile & Hpkg & Hwalk) _ [Hinit Hperm].
    split.
    + cbn [existsb]. rewrite Hfile, Hinit. reflexivity.
    + intros prefix. destruct (Hperm prefix) as [Htop Hbelow].
      destruct (filters_agree prefix e e' Hname Hpkg) as (Hp & Hy & Hk).
      unfold top, below in *. cbn [List.filter List.flat_map].
      rewrite <- Hy, <- Hk, <- Hp. split.
      * destruct (yielded prefix e); cbn [List.map]; rewrite <- ?Hp; auto.
      * apply Permutation_app; [| assumption].
        destruct (kept prefix e); auto.
  - intros e1 e2 l. split.
    + cbn [existsb]. rewrite !orb_assoc.
      rewrite (orb_comm (is_file_named "__init__.py" e1)). reflexivity.
    + intros prefix. unfold top, below.
      cbn [List.filter List.flat_map]. split.
      * destruct (yielded prefix e1), (yielded prefix e2);
          cbn [List.map]; auto using perm_swap.
      * rewrite !app_assoc. apply Permutation_app_tail.
        apply Permutation_app_comm.
  - intros l1 l2 l3 _ [Hinit12 Hperm12] _ [Hinit23 Hperm23]. split.
    + congruence.
    + intros prefix.
      destruct (Hperm12 prefix), (Hperm23 prefix).
      split; etransitivity; eassumption.
Qed.

(** The packages found do not depend on the order of the listings, up to
    their own order. *)
Lemma find_packages_same_entries (t1 t2 : list entry) :
  same_entries t1 t2 ->
  Permutation (find_packages t1) (find_packages t2).
Proof.
  intros H. apply same_entries_agree in H. destruct H as [_ H].
  destruct (H EmptyString) as [Htop Hbelow].
  unfold find_packages. cbn [walk]. apply Permutation_app; assumption.
Qed.

End WalkUpToOrder.

Lemma packages_declared (found : list string) :
  Interp.packages (Manifest.declared found) = Some found.
Proof.
  unfold Interp.packages, Interp.get_strs. cbn [Manifest.declared].
  change (lookup "packages" _) with (Some (Interp.VList (List.map Interp.VStr found))).
  cbv iota beta.
  induction found as [| x found IH]; [reflexivity |].
  cbn [List.map Pep440.traverse Interp.as_str]. rewrite IH. reflexivity.
Qed.

(** C10: two evaluations of [setup.py] in directories with the same
    contents, listed in whatever order, both declare a distribution, and the
    two have the same name, version, author, description, [python_requires]
    and [install_requires]; their packages are the same up to order.  (Where
    setuptools cannot be imported, the two evaluations fail alike.) *)
Theorem manifest_deterministic (t1 t2 : list Setuptools.entry) :
  Setuptools.same_entries t1 t2 ->
  (exists d1 d2,
     Interp.manifest t1 true = Ok d1
     /\ Interp.manifest t2 true = Ok d2
     /\ Interp.name d1 = Interp.name d2
     /\ Interp.version d1 = Interp.version d2
     /\ Interp.author d1 = Interp.author d2
     /\ Interp.description d1 = Interp.description d2
     /\ Interp.python_requires d1 = Interp.python_requires d2
     /\ Interp.install_requires d1 = Interp.install_requires d2
     /\ Permutation (Interp.option_list (Interp.packages d1))
                    (Interp.option_list (Interp.packages d2)))
  /\ Interp.manifest t1 false = Interp.manifest t2 false.
Proof.
  intros Hsame. split.
  - exists (Manifest.declared (Setuptools.find_packages t1)),
           (Manifest.declared (Setuptools.find_packages t2)).
    split; [apply manifest_declared |].
    split; [apply manifest_declared |].
    do 6 (split; [reflexivity |]).
    rewrite !packages_declared. cbn [Interp.option_list].
    apply find_packages_same_entries. exact Hsame.
  - rewrite !manifest_without_setuptools. reflexivity.
Qed.

Lemma manifest_deterministic_witness :
  Setuptools.same_entries Manifest.listing1 Manifest.listing2
  /\ Interp.manifest Manifest.listing1 true
     = Ok (Manifest.declared ["agent"; "agent.tools"])
  /\ Interp.manifest Manifest.listing2 true
     = Ok (Manifest.declared ["agent"; "agent.tools"])
  /\ exists d1 d2,
       Interp.manifest Manifest.listing1 true = Ok d1
       /\ Interp.manifest Manifest.listing2 true = Ok d2
       /\ Interp.name d1 = Interp.name d2
       /\ Interp.version d1 = Interp.version d2
       /\ Interp.author d1 = Interp.author d2
       /\ Interp.description d1 = Interp.description d2
       /\ Interp.python_requires d1 = Interp.python_requires d2
       /\ Interp.install_requires d1 = Interp.install_requires d2
       /\ Permutation (Interp.option_list (Interp.packages d1))
                      (Interp.option_list (Interp.packages d2)).
Proof.
  assert (H : Setuptools.same_entries Manifest.listing1 Manifest.listing2).
  { eapply Setuptools.same_trans; [apply Setuptools.same_swap |].
    apply Setuptools.same_cons.
    - apply Setuptools.same_dir. apply Setuptools.same_swap.
    - apply Setuptools.same_cons; constructor. }
  split; [exact H |].
  split; [vm_compute; reflexivity |].
  split; [vm_compute; reflexivity |].
  exact (proj1 (manifest_deterministic _ _ H)).
Defined.

(** * Further properties *)

(** ** The directory and the declared distribution *)

Lemma lookup_declared_other (k : string) (found found' : list string) :
  k <> "packages" ->
  lookup k (Manifest.declared found) = lookup k (Manifest.declared found').
Proof.
  intros Hk. cbn [Manifest.declared lookup].
  repeat match goal with
         | |- context [String.eqb k ?s] =>
             destruct (String.eqb_spec k s); [first [reflexivity | congruence] |]
         end.
  reflexivity.
Qed.

(** X1: the directory [setup.py] is run in reaches the declared
    distribution through [packages] only: in any two directories, however
    different, every other keyword of the distribution has the same value. *)
Theorem declared_depends_on_directory_through_packages_only
    (t1 t2 : list Setuptools.entry) :
  exists d1 d2,
    Interp.manifest t1 true = Ok d1
    /\ Interp.manifest t2 true = Ok d2
    /\ forall k, k <> "packages" -> lookup k d1 = lookup k d2.
Proof.
  exists (Manifest.declared (Setuptools.find_packages t1)),
         (Manifest.declared (Setuptools.find_packages t2)).
  split; [apply manifest_declared |].
  split; [apply manifest_declared |].
  intros k Hk. apply lookup_declared_other. exact Hk.
Qed.

(** X3: a file, or a directory that is not itself a package (whatever it
    holds below), beside [setup.py] changes nothing: the packages found and
    the whole declared distribution are the same with and without it. *)
Theorem non_package_entry_ignored (before after : list Setuptools.entry)
    (e : Setuptools.entry) :
  Setuptools.looks_like_package e = false ->
  Setuptools.find_packages (before ++ e :: after)
  = Setuptools.find_packages (before ++ after)
  /\ Interp.manifest (before ++ e :: after) true
     = Interp.manifest (before ++ after) true.
Proof.
  intros He.
  assert (Hfind : Setuptools.find_packages (before ++ e :: after)
                  = Setuptools.find_packages (before ++ after)).
  { unfold Setuptools.find_packages. cbn [Setuptools.walk].
    destruct (not_package_not_yielded EmptyString e He) as [Hy Hk].
    rewrite !filter_app, !flat_map_app.
    cbn [List.filter List.flat_map]. rewrite Hy, Hk. reflexivity. }
  split; [exact Hfind |].
  rewrite !manifest_declared, Hfind. reflexivity.
Qed.

Lemma non_package_entry_ignored_witness :
  Setuptools.looks_like_package
    (Setuptools.Dir "tests"
       [ Setuptools.File "test_editor.py";
         Setuptools.Dir "helpers" [Setuptools.File "__init__.py"] ]) = false
  /\ Setuptools.find_packages
       ([Setuptools.File "setup.py"]
        ++ Setuptools.Dir "tests"
             [ Setuptools.File "test_editor.py";
               Setuptools.Dir "helpers" [Setuptools.File "__init__.py"] ]
           :: [Setuptools.Dir "agent" [Setuptools.File "__init__.py"]])
     = ["agent"]
  /\ Setuptools.find_packages
       ([Setuptools.File "setup.py"]
        ++ Setuptools.Dir "tests"
             [ Setuptools.File "test_editor.py";
               Setuptools.Dir "helpers" [Setuptools.File "__init__.py"] ]
           :: [Setuptools.Dir "agent" [Setuptools.File "__init__.py"]])
     = Setuptools.find_packages
         ([Setuptools.File "setup.py"]
          ++ [Setuptools.Dir "agent" [Setuptools.File "__init__.py"]]).
Proof.
  split; [reflexivity |]. split; [reflexivity |].
  apply (non_package_entry_ignored
           [Setuptools.File "setup.py"]
           [Setuptools.Dir "agent" [Setuptools.File "__init__.py"]]).
  reflexivity.
Defined.


(** ** The filters of the package search *)

Lemma fnmatchcase_star_unfold (item rest : string) :
  Setuptools.fnmatchcase item (String "*" rest)
  = Setuptools.fnmatchcase item rest
    || match item with
       | EmptyString => false
       | String _ item' => Setuptools.fnmatchcase item' (String "*" rest)
       end.
Proof. destruct item; reflexivity. Qed.

Lemma fnmatchcase_everything (item : string) :
  Setuptools.fnmatchcase item "*" = true.
Proof.
  induction item as [| c item IH]; [reflexivity |].
  rewrite fnmatchcase_star_unfold, IH. apply orb_true_r.
Qed.

Lemma default_include_all (item : string) :
  Setuptools.matches_any Setuptools.default_include item = true.
Proof.
  unfold Setuptools.matches_any, Setuptools.default_include.
  cbn [existsb]. rewrite fnmatchcase_everything. reflexivity.
Qed.

Lemma last_char_app (p q : string) :
  q <> EmptyString -> last_char (p ++ q) = last_char q.
Proof.
  intros Hq. induction p as [| c p IH]; [reflexivity |].
  cbn [append last_char]. rewrite IH.
  destruct q as [| d q]; [congruence |].
  cbn [last_char]. destruct (last_char q); reflexivity.
Qed.

(** Nothing is listed in the exclude filter as a whole: a text that ends
    in a star is neither [ez_setup] nor [*__pycache__]. *)
Lemma never_listed (package suffix : string) :
  last_char suffix = Some "*"%char ->
  Setuptools.listed Setuptools.always_exclude (package ++ suffix) = false.
Proof.
  intros Hlast.
  assert (Hne : suffix <> EmptyString) by (intros ->; discriminate).
  unfold Setuptools.listed, Setuptools.always_exclude. cbn [string_in].
  destruct (String.eqb_spec (package ++ suffix) "ez_setup") as [E | _].
  { apply (f_equal last_char) in E.
    rewrite (last_char_app _ _ Hne), Hlast in E. discriminate. }
  destruct (String.eqb_spec (package ++ suffix) "*__pycache__") as [E | _].
  { apply (f_equal last_char) in E.
    rewrite (last_char_app _ _ Hne), Hlast in E. discriminate. }
  reflexivity.
Qed.

(** With the default filters, every directory that looks like a package
    is searched further, and it is reported unless an always-excluded
    pattern matches its dotted name. *)
Lemma kept_default (prefix : string) (d : Setuptools.entry) :
  Setuptools.kept prefix d = Setuptools.looks_like_package d.
Proof.
  unfold Setuptools.kept.
  rewrite !never_listed by reflexivity. apply andb_true_r.
Qed.

Lemma yielded_default (prefix : string) (d : Setuptools.entry) :
  Setuptools.yielded prefix d
  = Setuptools.looks_like_package d
    && negb (Setuptools.matches_any Setuptools.always_exclude
               (Setuptools.package_name prefix d)).
Proof.
  unfold Setuptools.yielded. rewrite default_include_all, andb_true_r.
  reflexivity.
Qed.

Lemma fnmatchcase_plain (pattern item : string) :
  Setuptools.plain pattern = true ->
  Setuptools.fnmatchcase item pattern = String.eqb item pattern.
Proof.
  revert item. induction pattern as [| c pattern IH]; intros item Hplain.
  - destruct item; reflexivity.
  - cbn [Setuptools.plain] in Hplain.
    apply andb_true_iff in Hplain. destruct Hplain as [Hc Hplain].
    apply andb_true_iff in Hc. destruct Hc as [Hstar Hany].
    apply negb_true_iff in Hstar. apply negb_true_iff in Hany.
    cbn [Setuptools.fnmatchcase]. rewrite Hstar.
    destruct item as [| d item]; [reflexivity |].
    rewrite Hany, (IH item Hplain). cbn [orb String.eqb].
    rewrite (Ascii.eqb_sym c d). reflexivity.
Qed.

Lemma fnmatchcase_star_iff (item rest : string) :
  Setuptools.fnmatchcase item (String "*" rest) = true
  <-> exists p q, item = (p ++ q)%string
                  /\ Setuptools.fnmatchcase q rest = true.
Proof.
  induction item as [| c item IH]; rewrite fnmatchcase_star_unfold.
  - rewrite orb_false_r. split.
    + intros H. exists EmptyString, EmptyString. auto.
    + intros (p & q & E & H). destruct p; [| discriminate].
      cbn [append] in E. subst q. exact H.
  - rewrite orb_true_iff, IH. split.
    + intros [H | (p & q & E & H)].
      * exists EmptyString, (String c item). auto.
      * exists (String c p), q. cbn [append]. rewrite E. auto.
    + intros (p & q & E & H). destruct p as [| c' p].
      * cbn [append] in E. subst q. left. exact H.
      * cbn [append] in E. injection E as _ E. right. eauto.
Qed.

(** The names the search always leaves out: [ez_setup] itself, and
    whatever ends in [__pycache__]. *)
Lemma always_excluded_iff (name : string) :
  Setuptools.matches_any Setuptools.always_exclude name = true
  <-> name = "ez_setup" \/ exists p, name = (p ++ "__pycache__")%string.
Proof.
  unfold Setuptools.matches_any, Setuptools.always_exclude.
  cbn [existsb]. rewrite orb_false_r, orb_true_iff.
  rewrite (fnmatchcase_plain "ez_setup") by reflexivity.
  rewrite String.eqb_eq, fnmatchcase_star_iff.
  split; (intros [H | H]; [left; exact H | right]).
  - destruct H as (p & q & E & H).
    rewrite (fnmatchcase_plain "__pycache__") in H by reflexivity.
    apply String.eqb_eq in H. subst q. eauto.
  - destruct H as [p E]. exists p, "__pycache__". split; [exact E |].
    reflexivity.
Qed.

(** ** Packages picked up *)

Lemma walk_nil_without_packages (prefix name : string)
    (es : list Setuptools.entry) :
  existsb Setuptools.looks_like_package es = false ->
  Setuptools.walk prefix (Setuptools.Dir name es) = [].
Proof.
  intros H. apply walk_no_packages.
  induction es as [| e es IH]; [reflexivity |].
  cbn [existsb] in H. apply orb_false_iff in H. destruct H as [He Hes].
  cbn [forallb]. rewrite He, (IH Hes). reflexivity.
Qed.

Lemma walk_nil_all_excluded (prefix name : string)
    (es : list Setuptools.entry) (e : Setuptools.entry) :
  Setuptools.walk prefix (Setuptools.Dir name es) = [] ->
  In e es ->
  Setuptools.looks_like_package e = true ->
  Setuptools.matches_any Setuptools.always_exclude
    (Setuptools.package_name prefix e) = true.
Proof.
  cbn [Setuptools.walk]. intros Hnil Hin Hpkg.
  apply app_eq_nil in Hnil. destruct Hnil as [Htop _].
  apply map_eq_nil in Htop.
  destruct (Setuptools.matches_any Setuptools.always_exclude
              (Setuptools.package_name prefix e)) eqn:Hex; [reflexivity |].
  assert (Hy : In e (List.filter (Setuptools.yielded prefix) es)).
  { apply filter_In. split; [exact Hin |].
    rewrite yielded_default, Hpkg, Hex. reflexivity. }
  rewrite Htop in Hy. destruct Hy.
Qed.

(** X2: in every directory, when no entry beside [setup.py] is a directory
    with a dot-free name that holds an [__init__.py], the declared list of
    packages is empty; and when the declared list is empty, every such
    directory beside [setup.py] has a name the search always leaves out:
    [ez_setup], or one that ends in [__pycache__]. *)
Theorem declared_packages_empty (tree : list Setuptools.entry) :
  exists d,
    Interp.manifest tree true = Ok d
    /\ (existsb Setuptools.looks_like_package tree = false ->
        Interp.packages d = Some [])
    /\ (Interp.packages d = Some [] ->
        forall e, In e tree ->
          Setuptools.looks_like_package e = true ->
          Setuptools.entry_name e = "ez_setup"
          \/ exists p, Setuptools.entry_name e = (p ++ "__pycache__")%string).
Proof.
  eexists. split; [apply manifest_declared |].
  rewrite packages_declared. unfold Setuptools.find_packages. split.
  - intros H. rewrite (walk_nil_without_packages _ _ _ H). reflexivity.
  - intros H e Hin Hpkg. injection H as H.
    apply always_excluded_iff.
    exact (walk_nil_all_excluded EmptyString "." tree e H Hin Hpkg).
Qed.

(** X9: a directory beside [setup.py] with a dot-free name that holds an
    [__init__.py] is among the declared packages under its name, unless the
    name is [ez_setup] or ends in [__pycache__]; and, whether or not it is
    itself reported, every such directory directly inside it is declared
    under the dotted name [outer.inner], unless that name ends in
    [__pycache__]. *)
Theorem package_directories_declared (tree : list Setuptools.entry)
    (outer : string) (es : list Setuptools.entry) :
  In (Setuptools.Dir outer es) tree ->
  Setuptools.looks_like_package (Setuptools.Dir outer es) = true ->
  outer <> EmptyString ->
  exists d found,
    Interp.manifest tree true = Ok d
    /\ Interp.packages d = Some found
    /\ (Setuptools.matches_any Setuptools.always_exclude outer = false ->
        In outer found)
    /\ forall inner es',
         In (Setuptools.Dir inner es') es ->
         Setuptools.looks_like_package (Setuptools.Dir inner es') = true ->
         Setuptools.matches_any Setuptools.always_exclude
           (outer ++ "." ++ inner) = false ->
         In (outer ++ "." ++ inner)%string found.
Proof.
  intros Hin Hpkg Hname.
  exists (Manifest.declared (Setuptools.find_packages tree)),
         (Setuptools.find_packages tree).
  split; [apply manifest_declared |].
  split; [apply packages_declared |].
  unfold Setuptools.find_packages. cbn [Setuptools.walk]. split.
  - intros Hex. apply in_or_app. left.
    apply (in_map (Setuptools.package_name EmptyString)
             _ (Setuptools.Dir outer es)).
    apply filter_In. split; [exact Hin |].
    rewrite yielded_default, Hpkg.
    cbn [Setuptools.package_name Setuptools.entry_name Setuptools.qualify].
    rewrite Hex. reflexivity.
  - intros inner es' Hin' Hpkg' Hex.
    apply in_or_app. right. apply in_flat_map.
    exists (Setuptools.Dir outer es). split; [exact Hin |].
    rewrite kept_default, Hpkg.
    cbn [Setuptools.package_name Setuptools.entry_name Setuptools.qualify
         Setuptools.walk].
    assert (Hq : Setuptools.package_name outer (Setuptools.Dir inner es')
                 = (outer ++ "." ++ inner)%string)
      by (destruct outer; [congruence | reflexivity]).
    apply in_or_app. left. rewrite <- Hq.
    apply (in_map (Setuptools.package_name outer)
             _ (Setuptools.Dir inner es')).
    apply filter_In. split; [exact Hin' |].
    rewrite yielded_default, Hpkg', Hq, Hex. reflexivity.
Qed.

Lemma package_directories_declared_witness :
  In (Setuptools.Dir "agent"
        [ Setuptools.File "__init__.py";
          Setuptools.Dir "tools" [Setuptools.File "__init__.py"];
          Setuptools.File "editor.py" ])
     Manifest.listing1
  /\ Interp.packages (Manifest.declared ["agent"; "agent.tools"])
     = Some ["agent"; "agent.tools"]
  /\ exists d found,
       Interp.manifest Manifest.listing1 true = Ok d
       /\ Interp.packages d = Some found
       /\ (Setuptools.matches_any Setuptools.always_exclude "agent" = false ->
           In "agent" found)
       /\ forall inner es',
            In (Setuptools.Dir inner es')
               [ Setuptools.File "__init__.py";
                 Setuptools.Dir "tools" [Setuptools.File "__init__.py"];
                 Setuptools.File "editor.py" ] ->
            Setuptools.looks_like_package (Setuptools.Dir inner es') = true ->
            Setuptools.matches_any Setuptools.always_exclude
              ("agent" ++ "." ++ inner) = false ->
            In ("agent" ++ "." ++ inner)%string found.
Proof.
  split; [right; left; reflexivity |].
  split; [reflexivity |].
  apply (package_directories_declared Manifest.listing1 "agent").
  - right. left. reflexivity.
  - reflexivity.
  - discriminate.
Defined.
